(** * Tuya BLE constants: a shallow embedding of [tuya_ble/const.py]

    The module is a static vocabulary: scalar constants, three
    enumerations with integer or string values, and a large catalogue of
    data point codes.  Python's [Enum] machinery is modelled explicitly
    (member table, name table with aliases, value table), because several
    properties below depend on how a class body with repeated values is
    turned into members. *)

From Stdlib Require Import ZArith Ascii String List Lia.
From stdpp Require Import gmap strings list fin_maps sorting.

Local Open Scope Z_scope.
Local Open Scope string_scope.

(** ** Module-level constants (const.py, lines 5-16) *)

Definition GATT_MTU : Z := 20.

Definition DEFAULT_ATTEMPTS : Z := 0xFFFF.

Definition CHARACTERISTIC_NOTIFY : string := "00002b10-0000-1000-8000-00805f9b34fb".
Definition CHARACTERISTIC_WRITE : string := "00002b11-0000-1000-8000-00805f9b34fb".

Definition SERVICE_UUID : string := "0000a201-0000-1000-8000-00805f9b34fb".

Definition MANUFACTURER_DATA_ID : Z := 0x07D0.

Definition RESPONSE_WAIT_TIMEOUT : Z := 60.

(** The tail shared by every UUID derived from a 32-bit short form
    (Bluetooth base UUID 00000000-0000-1000-8000-00805F9B34FB). *)
Definition bluetooth_base_suffix : string := "-0000-1000-8000-00805f9b34fb".

(** ** Python's [Enum] class construction

    A class body is the ordered list of [NAME = value] assignments.  The
    metaclass walks it in order and keeps three tables:
    - [member_names]: the names of the canonical members, in definition order;
    - [member_map]: every name of the body, aliases included, to its member;
    - [value2member_map]: every value to the member that first carried it.
    A name whose value is already in [value2member_map] becomes an alias of
    the existing member; a name assigned twice is rejected. *)

Module PyEnum.

Section Construction.

Context {V : Type} `{Countable V}.

Record member : Type := Member { name : string; value : V }.

Definition body : Type := list (string * V).

Record EnumType : Type := {
  member_names : list string;
  member_map : gmap string member;
  value2member_map : gmap V member
}.

Definition empty : EnumType :=
  {| member_names := []; member_map := ∅; value2member_map := ∅ |}.

(** One assignment of the class body. *)
Definition define (E : EnumType) (n : string) (v : V) : option EnumType :=
  match member_map E !! n with
  | Some _ => None
  | None =>
      match value2member_map E !! v with
      | Some m =>
          Some {| member_names := member_names E;
                  member_map := <[n := m]> (member_map E);
                  value2member_map := value2member_map E |}
      | None =>
          let m := Member n v in
          Some {| member_names := member_names E ++ [n];
                  member_map := <[n := m]> (member_map E);
                  value2member_map := <[v := m]> (value2member_map E) |}
      end
  end.

Fixpoint extend (E : EnumType) (b : body) : option EnumType :=
  match b with
  | [] => Some E
  | (n, v) :: rest =>
      match define E n v with
      | Some E' => extend E' rest
      | None => None
      end
  end.

Definition make (b : body) : option EnumType := extend empty b.

(** [E[n]]: lookup by name (aliases resolve to the canonical member). *)
Definition by_name (E : EnumType) (n : string) : option member := member_map E !! n.

(** [E(v)]: lookup by value. *)
Definition by_value (E : EnumType) (v : V) : option member := value2member_map E !! v.

(** [list(E)]: the canonical members in definition order. *)
Definition members (E : EnumType) : list member :=
  omap (by_name E) (member_names E).

(** What the class body itself assigns to a name. *)
Definition assigned (b : body) (n : string) : option V :=
  snd <$> List.find (fun nv => bool_decide (nv.1 = n)) b.

(** The first assignment of the body that carries value [v]. *)
Definition first_with (b : body) (v : V) : option member :=
  (fun nv => Member nv.1 nv.2) <$> List.find (fun nv => bool_decide (nv.2 = v)) b.

End Construction.

Arguments member V : clear implicits.
Arguments body V : clear implicits.
Arguments EnumType V {_ _} .

End PyEnum.

(** ** [class TuyaBLECode(Enum)] (const.py, lines 19-76) *)

Inductive TuyaBLECode : Type :=
  | FUN_SENDER_DEVICE_INFO
  | FUN_SENDER_PAIR
  | FUN_SENDER_DPS
  | FUN_SENDER_DEVICE_STATUS
  | FUN_SENDER_UNBIND
  | FUN_SENDER_DEVICE_RESET
  | FUN_SENDER_OTA_START
  | FUN_SENDER_OTA_FILE
  | FUN_SENDER_OTA_OFFSET
  | FUN_SENDER_OTA_UPGRADE
  | FUN_SENDER_OTA_OVER
  | FUN_SENDER_DPS_V4
  | FUN_RECEIVE_DP
  | FUN_RECEIVE_TIME_DP
  | FUN_RECEIVE_SIGN_DP
  | FUN_RECEIVE_SIGN_TIME_DP
  | FUN_RECEIVE_DP_V4
  | FUN_RECEIVE_TIME_DP_V4
  | FUN_RECEIVE_TIME1_REQ
  | FUN_RECEIVE_TIME2_REQ.

Definition TuyaBLECode_name (c : TuyaBLECode) : string :=
  match c with
  | FUN_SENDER_DEVICE_INFO => "FUN_SENDER_DEVICE_INFO"
  | FUN_SENDER_PAIR => "FUN_SENDER_PAIR"
  | FUN_SENDER_DPS => "FUN_SENDER_DPS"
  | FUN_SENDER_DEVICE_STATUS => "FUN_SENDER_DEVICE_STATUS"
  | FUN_SENDER_UNBIND => "FUN_SENDER_UNBIND"
  | FUN_SENDER_DEVICE_RESET => "FUN_SENDER_DEVICE_RESET"
  | FUN_SENDER_OTA_START => "FUN_SENDER_OTA_START"
  | FUN_SENDER_OTA_FILE => "FUN_SENDER_OTA_FILE"
  | FUN_SENDER_OTA_OFFSET => "FUN_SENDER_OTA_OFFSET"
  | FUN_SENDER_OTA_UPGRADE => "FUN_SENDER_OTA_UPGRADE"
  | FUN_SENDER_OTA_OVER => "FUN_SENDER_OTA_OVER"
  | FUN_SENDER_DPS_V4 => "FUN_SENDER_DPS_V4"
  | FUN_RECEIVE_DP => "FUN_RECEIVE_DP"
  | FUN_RECEIVE_TIME_DP => "FUN_RECEIVE_TIME_DP"
  | FUN_RECEIVE_SIGN_DP => "FUN_RECEIVE_SIGN_DP"
  | FUN_RECEIVE_SIGN_TIME_DP => "FUN_RECEIVE_SIGN_TIME_DP"
  | FUN_RECEIVE_DP_V4 => "FUN_RECEIVE_DP_V4"
  | FUN_RECEIVE_TIME_DP_V4 => "FUN_RECEIVE_TIME_DP_V4"
  | FUN_RECEIVE_TIME1_REQ => "FUN_RECEIVE_TIME1_REQ"
  | FUN_RECEIVE_TIME2_REQ => "FUN_RECEIVE_TIME2_REQ"
  end.

Definition TuyaBLECode_value (c : TuyaBLECode) : Z :=
  match c with
  | FUN_SENDER_DEVICE_INFO => 0x0000
  | FUN_SENDER_PAIR => 0x0001
  | FUN_SENDER_DPS => 0x0002
  | FUN_SENDER_DEVICE_STATUS => 0x0003
  | FUN_SENDER_UNBIND => 0x0005
  | FUN_SENDER_DEVICE_RESET => 0x0006
  | FUN_SENDER_OTA_START => 0x000C
  | FUN_SENDER_OTA_FILE => 0x000D
  | FUN_SENDER_OTA_OFFSET => 0x000E
  | FUN_SENDER_OTA_UPGRADE => 0x000F
  | FUN_SENDER_OTA_OVER => 0x0010
  | FUN_SENDER_DPS_V4 => 0x0027
  | FUN_RECEIVE_DP => 0x8001
  | FUN_RECEIVE_TIME_DP => 0x8003
  | FUN_RECEIVE_SIGN_DP => 0x8004
  | FUN_RECEIVE_SIGN_TIME_DP => 0x8005
  | FUN_RECEIVE_DP_V4 => 0x8006
  | FUN_RECEIVE_TIME_DP_V4 => 0x8007
  | FUN_RECEIVE_TIME1_REQ => 0x8011
  | FUN_RECEIVE_TIME2_REQ => 0x8012
  end.

(** The assignments in the order the class body makes them. *)
Definition TuyaBLECode_declared : list TuyaBLECode :=
  [ FUN_SENDER_DEVICE_INFO; FUN_SENDER_PAIR; FUN_SENDER_DPS; FUN_SENDER_DEVICE_STATUS;
    FUN_SENDER_UNBIND; FUN_SENDER_DEVICE_RESET;
    FUN_SENDER_OTA_START; FUN_SENDER_OTA_FILE; FUN_SENDER_OTA_OFFSET;
    FUN_SENDER_OTA_UPGRADE; FUN_SENDER_OTA_OVER;
    FUN_SENDER_DPS_V4;
    FUN_RECEIVE_DP; FUN_RECEIVE_TIME_DP; FUN_RECEIVE_SIGN_DP; FUN_RECEIVE_SIGN_TIME_DP;
    FUN_RECEIVE_DP_V4; FUN_RECEIVE_TIME_DP_V4;
    FUN_RECEIVE_TIME1_REQ; FUN_RECEIVE_TIME2_REQ ].

Definition TuyaBLECode_body : PyEnum.body Z :=
  map (fun c => (TuyaBLECode_name c, TuyaBLECode_value c)) TuyaBLECode_declared.

Definition TuyaBLECode_class : PyEnum.EnumType Z :=
  default PyEnum.empty (PyEnum.make TuyaBLECode_body).

(** [TuyaBLECode[n]] and [TuyaBLECode(v)], landing in the closed type. *)
Definition TuyaBLECode_of_name (n : string) : option TuyaBLECode :=
  List.find (fun c => bool_decide (TuyaBLECode_name c = n)) TuyaBLECode_declared.

Definition TuyaBLECode_of_value (v : Z) : option TuyaBLECode :=
  match PyEnum.by_value TuyaBLECode_class v with
  | Some m => TuyaBLECode_of_name (PyEnum.name m)
  | None => None
  end.

(** The two families the docstring distinguishes, told apart by the
    prefix of the member name. *)
Definition is_sender_name (n : string) : bool := String.prefix "FUN_SENDER_" n.

Definition is_receiver_name (n : string) : bool := String.prefix "FUN_RECEIVE_" n.

(** Value lookup as an inverse, with the number of members left open:
    the class has [k] members, their values are pairwise distinct, and
    looking a member's value up gives the member back, in the class tables
    and in the closed type alike. *)
Definition TuyaBLECode_value_lookup_inverse (k : nat) : Prop :=
  length (PyEnum.members TuyaBLECode_class) = k /\
  NoDup (map PyEnum.value (PyEnum.members TuyaBLECode_class)) /\
  (forall m, In m (PyEnum.members TuyaBLECode_class) ->
     PyEnum.by_value TuyaBLECode_class (PyEnum.value m) = Some m) /\
  (forall c, TuyaBLECode_of_value (TuyaBLECode_value c) = Some c).

(** ** [class TuyaBLEDataPointType(Enum)] (const.py, lines 79-97) *)

Inductive TuyaBLEDataPointType : Type :=
  | DT_RAW
  | DT_BOOL
  | DT_VALUE
  | DT_STRING
  | DT_ENUM
  | DT_BITMAP.

Definition TuyaBLEDataPointType_name (t : TuyaBLEDataPointType) : string :=
  match t with
  | DT_RAW => "DT_RAW"
  | DT_BOOL => "DT_BOOL"
  | DT_VALUE => "DT_VALUE"
  | DT_STRING => "DT_STRING"
  | DT_ENUM => "DT_ENUM"
  | DT_BITMAP => "DT_BITMAP"
  end.

Definition TuyaBLEDataPointType_value (t : TuyaBLEDataPointType) : Z :=
  match t with
  | DT_RAW => 0
  | DT_BOOL => 1
  | DT_VALUE => 2
  | DT_STRING => 3
  | DT_ENUM => 4
  | DT_BITMAP => 5
  end.

Definition TuyaBLEDataPointType_declared : list TuyaBLEDataPointType :=
  [ DT_RAW; DT_BOOL; DT_VALUE; DT_STRING; DT_ENUM; DT_BITMAP ].

Definition TuyaBLEDataPointType_body : PyEnum.body Z :=
  map (fun t => (TuyaBLEDataPointType_name t, TuyaBLEDataPointType_value t))
      TuyaBLEDataPointType_declared.

Definition TuyaBLEDataPointType_class : PyEnum.EnumType Z :=
  default PyEnum.empty (PyEnum.make TuyaBLEDataPointType_body).

(** ** [class TuyaDataPointCode(StrEnum)] (const.py, lines 100-386)

    The catalogue is kept as the class body itself: 281 assignments, in
    source order. *)

Definition TuyaDataPointCode_body : PyEnum.body string :=
  [
    ("AIR_QUALITY", "air_quality");
    ("AIR_QUALITY_INDEX", "air_quality_index");
    ("ALARM_SWITCH", "alarm_switch");
    ("ALARM_TIME", "alarm_time");
    ("ALARM_VOLUME", "alarm_volume");
    ("ALARM_MESSAGE", "alarm_message");
    ("ANGLE_HORIZONTAL", "angle_horizontal");
    ("ANGLE_VERTICAL", "angle_vertical");
    ("ANION", "anion");
    ("ARM_DOWN_PERCENT", "arm_down_percent");
    ("ARM_UP_PERCENT", "arm_up_percent");
    ("BASIC_ANTI_FLICKER", "basic_anti_flicker");
    ("BASIC_DEVICE_VOLUME", "basic_device_volume");
    ("BASIC_FLIP", "basic_flip");
    ("BASIC_INDICATOR", "basic_indicator");
    ("BASIC_NIGHTVISION", "basic_nightvision");
    ("BASIC_OSD", "basic_osd");
    ("BASIC_PRIVATE", "basic_private");
    ("BASIC_WDR", "basic_wdr");
    ("BATTERY", "battery");
    ("BATTERY_PERCENTAGE", "battery_percentage");
    ("BATTERY_STATE", "battery_state");
    ("BATTERY_VALUE", "battery_value");
    ("BRIGHT_CONTROLLER", "bright_controller");
    ("BRIGHT_STATE", "bright_state");
    ("BRIGHT_VALUE", "bright_value");
    ("BRIGHT_VALUE_1", "bright_value_1");
    ("BRIGHT_VALUE_2", "bright_value_2");
    ("BRIGHT_VALUE_3", "bright_value_3");
    ("BRIGHT_VALUE_V2", "bright_value_v2");
    ("BRIGHTNESS_MAX_1", "brightness_max_1");
    ("BRIGHTNESS_MAX_2", "brightness_max_2");
    ("BRIGHTNESS_MAX_3", "brightness_max_3");
    ("BRIGHTNESS_MIN_1", "brightness_min_1");
    ("BRIGHTNESS_MIN_2", "brightness_min_2");
    ("BRIGHTNESS_MIN_3", "brightness_min_3");
    ("C_F", "c_f");
    ("CH2O_STATE", "ch2o_state");
    ("CH2O_VALUE", "ch2o_value");
    ("CH4_SENSOR_STATE", "ch4_sensor_state");
    ("CH4_SENSOR_VALUE", "ch4_sensor_value");
    ("CHILD_LOCK", "child_lock");
    ("CISTERN", "cistern");
    ("CLEAN_AREA", "clean_area");
    ("CLEAN_TIME", "clean_time");
    ("CLICK_SUSTAIN_TIME", "click_sustain_time");
    ("CLOUD_RECIPE_NUMBER", "cloud_recipe_number");
    ("CLOSED_OPENED_KIT", "closed_opened_kit");
    ("CO_STATE", "co_state");
    ("CO_STATUS", "co_status");
    ("CO_VALUE", "co_value");
    ("CO2_STATE", "co2_state");
    ("CO2_VALUE", "co2_value");
    ("COLLECTION_MODE", "collection_mode");
    ("COLOR_DATA_V2", "color_data_v2");
    ("COLOUR_DATA", "colour_data");
    ("COLOUR_DATA_HSV", "colour_data_hsv");
    ("COLOUR_DATA_V2", "colour_data_v2");
    ("COOK_TEMPERATURE", "cook_temperature");
    ("COOK_TIME", "cook_time");
    ("CONCENTRATION_SET", "concentration_set");
    ("CONTROL", "control");
    ("CONTROL_2", "control_2");
    ("CONTROL_3", "control_3");
    ("CONTROL_BACK", "control_back");
    ("CONTROL_BACK_MODE", "control_back_mode");
    ("COUNTDOWN", "countdown");
    ("COUNTDOWN_LEFT", "countdown_left");
    ("COUNTDOWN_SET", "countdown_set");
    ("CRY_DETECTION_SWITCH", "cry_detection_switch");
    ("CUP_NUMBER", "cup_number");
    ("CUR_CURRENT", "cur_current");
    ("CUR_NEUTRAL", "cur_neutral");
    ("CUR_POWER", "cur_power");
    ("CUR_VOLTAGE", "cur_voltage");
    ("DECIBEL_SENSITIVITY", "decibel_sensitivity");
    ("DECIBEL_SWITCH", "decibel_switch");
    ("DEHUMIDITY_SET_ENUM", "dehumidify_set_enum");
    ("DEHUMIDITY_SET_VALUE", "dehumidify_set_value");
    ("DISINFECTION", "disinfection");
    ("DO_NOT_DISTURB", "do_not_disturb");
    ("DOORCONTACT_STATE", "doorcontact_state");
    ("DOORCONTACT_STATE_2", "doorcontact_state_2");
    ("DOORCONTACT_STATE_3", "doorcontact_state_3");
    ("DUSTER_CLOTH", "duster_cloth");
    ("ECO2", "eco2");
    ("EDGE_BRUSH", "edge_brush");
    ("ELECTRICITY_LEFT", "electricity_left");
    ("FAN_BEEP", "fan_beep");
    ("FAN_COOL", "fan_cool");
    ("FAN_DIRECTION", "fan_direction");
    ("FAN_HORIZONTAL", "fan_horizontal");
    ("FAN_SPEED", "fan_speed");
    ("FAN_SPEED_ENUM", "fan_speed_enum");
    ("FAN_SPEED_PERCENT", "fan_speed_percent");
    ("FAN_SWITCH", "fan_switch");
    ("FAN_MODE", "fan_mode");
    ("FAN_VERTICAL", "fan_vertical");
    ("FAR_DETECTION", "far_detection");
    ("FAULT", "fault");
    ("FEED_REPORT", "feed_report");
    ("FEED_STATE", "feed_state");
    ("FILTER", "filter");
    ("FILTER_LIFE", "filter");
    ("FILTER_RESET", "filter_reset");
    ("FLOODLIGHT_LIGHTNESS", "floodlight_lightness");
    ("FLOODLIGHT_SWITCH", "floodlight_switch");
    ("FORWARD_ENERGY_TOTAL", "forward_energy_total");
    ("GAS_SENSOR_STATE", "gas_sensor_state");
    ("GAS_SENSOR_STATUS", "gas_sensor_status");
    ("GAS_SENSOR_VALUE", "gas_sensor_value");
    ("HUMIDIFIER", "humidifier");
    ("HUMIDITY", "humidity");
    ("HUMIDITY_CURRENT", "humidity_current");
    ("HUMIDITY_INDOOR", "humidity_indoor");
    ("HUMIDITY_SET", "humidity_set");
    ("HUMIDITY_VALUE", "humidity_value");
    ("IPC_WORK_MODE", "ipc_work_mode");
    ("LED_TYPE_1", "led_type_1");
    ("LED_TYPE_2", "led_type_2");
    ("LED_TYPE_3", "led_type_3");
    ("LEVEL", "level");
    ("LEVEL_CURRENT", "level_current");
    ("LIGHT", "light");
    ("LIGHT_MODE", "light_mode");
    ("LOCK", "lock");
    ("MASTER_MODE", "master_mode");
    ("MACH_OPERATE", "mach_operate");
    ("MANUAL_FEED", "manual_feed");
    ("MATERIAL", "material");
    ("MODE", "mode");
    ("MOODLIGHTING", "moodlighting");
    ("MOTION_RECORD", "motion_record");
    ("MOTION_SENSITIVITY", "motion_sensitivity");
    ("MOTION_SWITCH", "motion_switch");
    ("MOTION_TRACKING", "motion_tracking");
    ("MOVEMENT_DETECT_PIC", "movement_detect_pic");
    ("MUFFLING", "muffling");
    ("NEAR_DETECTION", "near_detection");
    ("OPPOSITE", "opposite");
    ("PAUSE", "pause");
    ("PERCENT_CONTROL", "percent_control");
    ("PERCENT_CONTROL_2", "percent_control_2");
    ("PERCENT_CONTROL_3", "percent_control_3");
    ("PERCENT_STATE", "percent_state");
    ("PERCENT_STATE_2", "percent_state_2");
    ("PERCENT_STATE_3", "percent_state_3");
    ("POSITION", "position");
    ("PHASE_A", "phase_a");
    ("PHASE_B", "phase_b");
    ("PHASE_C", "phase_c");
    ("PIR", "pir");
    ("PM1", "pm1");
    ("PM10", "pm10");
    ("PM25", "pm25");
    ("PM25_STATE", "pm25_state");
    ("PM25_VALUE", "pm25_value");
    ("POWDER_SET", "powder_set");
    ("POWER", "power");
    ("POWER_GO", "power_go");
    ("POWER_TOTAL", "power_total");
    ("PRESENCE_STATE", "presence_state");
    ("PRESSURE_STATE", "pressure_state");
    ("PRESSURE_VALUE", "pressure_value");
    ("PUMP", "pump");
    ("PUMP_RESET", "pump_reset");
    ("OXYGEN", "oxygen");
    ("RECORD_MODE", "record_mode");
    ("RECORD_SWITCH", "record_switch");
    ("RELAY_STATUS", "relay_status");
    ("REMAIN_TIME", "remain_time");
    ("RESET_DUSTER_CLOTH", "reset_duster_cloth");
    ("RESET_EDGE_BRUSH", "reset_edge_brush");
    ("RESET_FILTER", "reset_filter");
    ("RESET_MAP", "reset_map");
    ("RESET_ROLL_BRUSH", "reset_roll_brush");
    ("REVERSE_ENERGY_TOTAL", "reverse_energy_total");
    ("ROLL_BRUSH", "roll_brush");
    ("SEEK", "seek");
    ("SENSITIVITY", "sensitivity");
    ("SENSOR_HUMIDITY", "sensor_humidity");
    ("SENSOR_TEMPERATURE", "sensor_temperature");
    ("SHAKE", "shake");
    ("SHOCK_STATE", "shock_state");
    ("SIREN_SWITCH", "siren_switch");
    ("SITUATION_SET", "situation_set");
    ("SLEEP", "sleep");
    ("SLOW_FEED", "slow_feed");
    ("SMOKE_SENSOR_STATE", "smoke_sensor_state");
    ("SMOKE_SENSOR_STATUS", "smoke_sensor_status");
    ("SMOKE_SENSOR_VALUE", "smoke_sensor_value");
    ("SOS", "sos");
    ("SOS_STATE", "sos_state");
    ("SPEED", "speed");
    ("SPRAY_MODE", "spray_mode");
    ("START", "start");
    ("STATUS", "status");
    ("STERILIZATION", "sterilization");
    ("SUCTION", "suction");
    ("SWING", "swing");
    ("SWITCH", "switch");
    ("SWITCH_1", "switch_1");
    ("SWITCH_2", "switch_2");
    ("SWITCH_3", "switch_3");
    ("SWITCH_4", "switch_4");
    ("SWITCH_5", "switch_5");
    ("SWITCH_6", "switch_6");
    ("SWITCH_7", "switch_7");
    ("SWITCH_8", "switch_8");
    ("SWITCH_BACKLIGHT", "switch_backlight");
    ("SWITCH_CHARGE", "switch_charge");
    ("SWITCH_CONTROLLER", "switch_controller");
    ("SWITCH_DISTURB", "switch_disturb");
    ("SWITCH_FAN", "switch_fan");
    ("SWITCH_HORIZONTAL", "switch_horizontal");
    ("SWITCH_LED", "switch_led");
    ("SWITCH_LED_1", "switch_led_1");
    ("SWITCH_LED_2", "switch_led_2");
    ("SWITCH_LED_3", "switch_led_3");
    ("SWITCH_NIGHT_LIGHT", "switch_night_light");
    ("SWITCH_SAVE_ENERGY", "switch_save_energy");
    ("SWITCH_SOUND", "switch_sound");
    ("SWITCH_SPRAY", "switch_spray");
    ("SWITCH_USB1", "switch_usb1");
    ("SWITCH_USB2", "switch_usb2");
    ("SWITCH_USB3", "switch_usb3");
    ("SWITCH_USB4", "switch_usb4");
    ("SWITCH_USB5", "switch_usb5");
    ("SWITCH_USB6", "switch_usb6");
    ("SWITCH_VERTICAL", "switch_vertical");
    ("SWITCH_VOICE", "switch_voice");
    ("TARGET_DIS_CLOSEST", "target_dis_closest");
    ("TEMP", "temp");
    ("TEMP_BOILING_C", "temp_boiling_c");
    ("TEMP_BOILING_F", "temp_boiling_f");
    ("TEMP_CONTROLLER", "temp_controller");
    ("TEMP_CURRENT", "temp_current");
    ("TEMP_CURRENT_F", "temp_current_f");
    ("TEMP_INDOOR", "temp_indoor");
    ("TEMP_SET", "temp_set");
    ("TEMP_SET_F", "temp_set_f");
    ("TEMP_UNIT_CONVERT", "temp_unit_convert");
    ("TEMP_VALUE", "temp_value");
    ("TEMP_VALUE_V2", "temp_value_v2");
    ("TEMPER_ALARM", "temper_alarm");
    ("TIME_TOTAL", "time_total");
    ("TIME_USE", "time_use");
    ("TOTAL_CLEAN_AREA", "total_clean_area");
    ("TOTAL_CLEAN_COUNT", "total_clean_count");
    ("TOTAL_CLEAN_TIME", "total_clean_time");
    ("TOTAL_FORWARD_ENERGY", "total_forward_energy");
    ("TOTAL_TIME", "total_time");
    ("TOTAL_PM", "total_pm");
    ("TOTAL_POWER", "total_power");
    ("TVOC", "tvoc");
    ("UPPER_TEMP", "upper_temp");
    ("UPPER_TEMP_F", "upper_temp_f");
    ("UV", "uv");
    ("VA_BATTERY", "va_battery");
    ("VA_HUMIDITY", "va_humidity");
    ("VA_TEMPERATURE", "va_temperature");
    ("VOC_STATE", "voc_state");
    ("VOC_VALUE", "voc_value");
    ("VOICE_SWITCH", "voice_switch");
    ("VOICE_TIMES", "voice_times");
    ("VOLUME_SET", "volume_set");
    ("WARM", "warm");
    ("WARM_TIME", "warm_time");
    ("WATER", "water");
    ("WATER_RESET", "water_reset");
    ("WATER_SET", "water_set");
    ("WATERSENSOR_STATE", "watersensor_state");
    ("WEATHER_DELAY", "weather_delay");
    ("WET", "wet");
    ("WINDOW_CHECK", "window_check");
    ("WINDOW_STATE", "window_state");
    ("WINDSPEED", "windspeed");
    ("WIRELESS_BATTERYLOCK", "wireless_batterylock");
    ("WIRELESS_ELECTRICITY", "wireless_electricity");
    ("WORK_MODE", "work_mode");
    ("WORK_POWER", "work_power")
  ].

Definition TuyaDataPointCode_class : PyEnum.EnumType string :=
  default PyEnum.empty (PyEnum.make TuyaDataPointCode_body).

(** ** [class TuyaDataPointType(StrEnum)] (const.py, lines 389-397) *)

Inductive TuyaDataPointType : Type :=
  | BOOLEAN
  | ENUM
  | INTEGER
  | JSON
  | RAW
  | STRING.

Definition TuyaDataPointType_name (t : TuyaDataPointType) : string :=
  match t with
  | BOOLEAN => "BOOLEAN"
  | ENUM => "ENUM"
  | INTEGER => "INTEGER"
  | JSON => "JSON"
  | RAW => "RAW"
  | STRING => "STRING"
  end.

Definition TuyaDataPointType_value (t : TuyaDataPointType) : string :=
  match t with
  | BOOLEAN => "Boolean"
  | ENUM => "Enum"
  | INTEGER => "Integer"
  | JSON => "Json"
  | RAW => "Raw"
  | STRING => "String"
  end.

Definition TuyaDataPointType_declared : list TuyaDataPointType :=
  [ BOOLEAN; ENUM; INTEGER; JSON; RAW; STRING ].

Definition TuyaDataPointType_body : PyEnum.body string :=
  map (fun t => (TuyaDataPointType_name t, TuyaDataPointType_value t))
      TuyaDataPointType_declared.

Definition TuyaDataPointType_class : PyEnum.EnumType string :=
  default PyEnum.empty (PyEnum.make TuyaDataPointType_body).

(** ** The data-point-type vocabulary of the specification

    Second definition, following the specification's words (section 3,
    DataPointType): the six variants and the names it gives them. *)

Module Spec.

Inductive DataPointType : Type :=
  | Raw
  | Boolean
  | Integer
  | Str
  | Enum
  | Bitmap.

Definition all_variants : list DataPointType :=
  [ Raw; Boolean; Integer; Str; Enum; Bitmap ].

Definition variant_name (d : DataPointType) : string :=
  match d with
  | Raw => "Raw"
  | Boolean => "Boolean"
  | Integer => "Integer"
  | Str => "String"
  | Enum => "Enum"
  | Bitmap => "Bitmap"
  end.

Definition vocabulary : list string := map variant_name all_variants.

(** A vocabulary is the specification's when it lists each of the six
    variant names once, in any order. *)
Definition is_spec_vocabulary (names : list string) : Prop :=
  names ≡ₚ vocabulary.

End Spec.

(** ** [class TuyaWorkMode(StrEnum)] (const.py, lines 400-406) *)

Inductive TuyaWorkMode : Type :=
  | COLOUR
  | MUSIC
  | SCENE
  | WHITE.

Definition TuyaWorkMode_name (w : TuyaWorkMode) : string :=
  match w with
  | COLOUR => "COLOUR"
  | MUSIC => "MUSIC"
  | SCENE => "SCENE"
  | WHITE => "WHITE"
  end.

Definition TuyaWorkMode_value (w : TuyaWorkMode) : string :=
  match w with
  | COLOUR => "colour"
  | MUSIC => "music"
  | SCENE => "scene"
  | WHITE => "white"
  end.

Definition TuyaWorkMode_declared : list TuyaWorkMode :=
  [ COLOUR; MUSIC; SCENE; WHITE ].

Definition TuyaWorkMode_body : PyEnum.body string :=
  map (fun w => (TuyaWorkMode_name w, TuyaWorkMode_value w)) TuyaWorkMode_declared.

Definition TuyaWorkMode_class : PyEnum.EnumType string :=
  default PyEnum.empty (PyEnum.make TuyaWorkMode_body).

(** ** Lookups into the closed types *)

(** [TuyaBLEDataPointType[n]] and [TuyaBLEDataPointType(v)]. *)
Definition TuyaBLEDataPointType_of_name (n : string) : option TuyaBLEDataPointType :=
  List.find (fun t => bool_decide (TuyaBLEDataPointType_name t = n))
            TuyaBLEDataPointType_declared.

Definition TuyaBLEDataPointType_of_value (v : Z) : option TuyaBLEDataPointType :=
  match PyEnum.by_value TuyaBLEDataPointType_class v with
  | Some m => TuyaBLEDataPointType_of_name (PyEnum.name m)
  | None => None
  end.

(** ** The attribute tables of the docstrings

    The docstring of [TuyaBLECode] (const.py, lines 28-47) lists each
    attribute with its code, and the docstring of [TuyaBLEDataPointType]
    (lines 83-88) lists its attributes; both are kept here as written, to be
    compared with the class bodies. *)

Definition TuyaBLECode_docstring : list (string * Z) :=
  [ ("FUN_SENDER_DEVICE_INFO", 0x0000);
    ("FUN_SENDER_PAIR", 0x0001);
    ("FUN_SENDER_DPS", 0x0002);
    ("FUN_SENDER_DEVICE_STATUS", 0x0003);
    ("FUN_SENDER_UNBIND", 0x0005);
    ("FUN_SENDER_DEVICE_RESET", 0x0006);
    ("FUN_SENDER_OTA_START", 0x000C);
    ("FUN_SENDER_OTA_FILE", 0x000D);
    ("FUN_SENDER_OTA_OFFSET", 0x000E);
    ("FUN_SENDER_OTA_UPGRADE", 0x000F);
    ("FUN_SENDER_OTA_OVER", 0x0010);
    ("FUN_SENDER_DPS_V4", 0x0027);
    ("FUN_RECEIVE_DP", 0x8001);
    ("FUN_RECEIVE_TIME_DP", 0x8003);
    ("FUN_RECEIVE_SIGN_DP", 0x8004);
    ("FUN_RECEIVE_SIGN_TIME_DP", 0x8005);
    ("FUN_RECEIVE_DP_V4", 0x8006);
    ("FUN_RECEIVE_TIME_DP_V4", 0x8007);
    ("FUN_RECEIVE_TIME1_REQ", 0x8011);
    ("FUN_RECEIVE_TIME2_REQ", 0x8012) ].

Definition TuyaBLEDataPointType_docstring : list string :=
  [ "DT_RAW"; "DT_BOOL"; "DT_VALUE"; "DT_STRING"; "DT_ENUM"; "DT_BITMAP" ].

(** ** Python string methods on ASCII text *)

Module PyStr.

Definition is_upper (a : ascii) : bool :=
  (65 <=? nat_of_ascii a)%nat && (nat_of_ascii a <=? 90)%nat.

Definition is_lower (a : ascii) : bool :=
  (97 <=? nat_of_ascii a)%nat && (nat_of_ascii a <=? 122)%nat.

Definition is_digit (a : ascii) : bool :=
  (48 <=? nat_of_ascii a)%nat && (nat_of_ascii a <=? 57)%nat.

Definition is_hex_lower (a : ascii) : bool :=
  is_digit a || ((97 <=? nat_of_ascii a)%nat && (nat_of_ascii a <=? 102)%nat).

Definition lower_char (a : ascii) : ascii :=
  if is_upper a then ascii_of_nat (nat_of_ascii a + 32) else a.

Definition upper_char (a : ascii) : ascii :=
  if is_lower a then ascii_of_nat (nat_of_ascii a - 32) else a.

(** [s.lower()] *)
Fixpoint lower (s : string) : string :=
  match s with
  | EmptyString => EmptyString
  | String a rest => String (lower_char a) (lower rest)
  end.

(** [s.removeprefix(p)] *)
Definition removeprefix (p s : string) : string :=
  if String.prefix p s
  then String.substring (String.length p) (String.length s - String.length p) s
  else s.

(** [s.capitalize()] *)
Definition capitalize (s : string) : string :=
  match s with
  | EmptyString => EmptyString
  | String a rest => String (upper_char a) (lower rest)
  end.

Fixpoint all_chars (p : ascii -> bool) (s : string) : bool :=
  match s with
  | EmptyString => true
  | String a rest => p a && all_chars p rest
  end.

(** A lower-case identifier: a letter, then letters, digits and underscores. *)
Definition is_snake_case (s : string) : bool :=
  match s with
  | EmptyString => false
  | String a rest =>
      is_lower a && all_chars (fun c => is_lower c || is_digit c || Ascii.eqb c "_") rest
  end.

(** An upper-case constant name: a letter, then letters, digits and
    underscores. *)
Definition is_constant_case (s : string) : bool :=
  match s with
  | EmptyString => false
  | String a rest =>
      is_upper a && all_chars (fun c => is_upper c || is_digit c || Ascii.eqb c "_") rest
  end.

(** The canonical text of a UUID: 36 characters, hyphens at offsets 8, 13,
    18 and 23, lower-case hexadecimal digits elsewhere. *)
Fixpoint is_uuid_from (i : nat) (s : string) : bool :=
  match s with
  | EmptyString => (i =? 36)%nat
  | String a rest =>
      (if (i =? 8)%nat || (i =? 13)%nat || (i =? 18)%nat || (i =? 23)%nat
       then Ascii.eqb a "-" else is_hex_lower a)
      && is_uuid_from (S i) rest
  end.

Definition is_uuid (s : string) : bool := is_uuid_from 0 s.

End PyStr.

(** ** The vocabulary a data-point-type enumeration exposes

    Both data-point-type enumerations are read in the same way, from the
    names of their members. *)

(** The word a member is named by: its name, without the DT_ prefix that
    the BLE enumeration puts before every name, capitalised. *)
Definition data_point_type_word (n : string) : string :=
  PyStr.capitalize (PyStr.removeprefix "DT_" n).

(** The variant a word names: the six names of the specification, and the
    two short forms of the BLE enumeration, Bool for Boolean (the docstring
    of DT_BOOL: "a boolean value") and Value for Integer (the docstring of
    DT_VALUE: "a numerical value"; the specification writes Integer(Value)).
    Any other word names no variant. *)
Definition variant_of_word (w : string) : option Spec.DataPointType :=
  if bool_decide (w = "Raw") then Some Spec.Raw
  else if bool_decide (w = "Boolean") || bool_decide (w = "Bool") then Some Spec.Boolean
  else if bool_decide (w = "Integer") || bool_decide (w = "Value") then Some Spec.Integer
  else if bool_decide (w = "String") then Some Spec.Str
  else if bool_decide (w = "Enum") then Some Spec.Enum
  else if bool_decide (w = "Bitmap") then Some Spec.Bitmap
  else None.

(** The name under which a member enters the vocabulary: the name of its
    variant, or its own word when it names none. *)
Definition exposed_variant_name (n : string) : string :=
  match variant_of_word (data_point_type_word n) with
  | Some d => Spec.variant_name d
  | None => data_point_type_word n
  end.

Definition TuyaBLEDataPointType_vocabulary : list string :=
  map (fun m => exposed_variant_name (PyEnum.name m))
      (PyEnum.members TuyaBLEDataPointType_class).

Definition TuyaDataPointType_vocabulary : list string :=
  map (fun m => exposed_variant_name (PyEnum.name m))
      (PyEnum.members TuyaDataPointType_class).

(** The three names of [TuyaDataPointCode] whose value is not the name in
    lower case (const.py, lines 183, 184 and 209). *)
Definition TuyaDataPointCode_irregular : list string :=
  [ "DEHUMIDITY_SET_ENUM"; "DEHUMIDITY_SET_VALUE"; "FILTER_LIFE" ].

(** Members of an enumeration can be compared when their values can. *)
#[global] Instance PyEnum_member_eq_dec {V : Type} `{EqDecision V} :
  EqDecision (PyEnum.member V).
Proof. solve_decision. Defined.

(** * Facts about the construction of enumerations *)

Module PyEnumFacts.

Import PyEnum.

Section Facts.

Context {V : Type} `{Countable V}.

Implicit Types (E : EnumType V) (b : body V) (n : string) (v : V).

(** Both branches of [define] bind the new name to the member that the
    value table holds for the value afterwards. *)
Lemma define_by_name E n v E' :
  define E n v = Some E' ->
  by_name E n = None /\
  exists m, by_value E' v = Some m /\ member_map E' = <[n := m]> (member_map E).
Proof.
  unfold define, by_name, by_value.
  destruct (member_map E !! n) eqn:Hn; [discriminate|].
  destruct (value2member_map E !! v) as [m|] eqn:Hv; intros [= <-]; cbn.
  - split; [reflexivity|]. exists m. auto.
  - split; [reflexivity|]. exists (Member n v).
    rewrite lookup_insert_eq. auto.
Qed.

(** The value table only grows, and only at the value being defined. *)
Lemma define_by_value E n v E' w :
  define E n v = Some E' ->
  by_value E' w =
    match by_value E w with
    | Some m => Some m
    | None => if decide (v = w) then Some (Member n v) else None
    end.
Proof.
  unfold define, by_value.
  destruct (member_map E !! n); [discriminate|].
  destruct (value2member_map E !! v) as [m|] eqn:Hv; intros [= <-]; cbn.
  - destruct (value2member_map E !! w) eqn:Hw; [reflexivity|].
    destruct (decide (v = w)) as [->|]; congruence.
  - rewrite lookup_insert.
    destruct (decide (v = w)) as [->|]; [rewrite Hv; reflexivity|].
    destruct (value2member_map E !! w); reflexivity.
Qed.

Lemma first_with_cons n v b w :
  first_with ((n, v) :: b) w =
    if decide (v = w) then Some (Member n v) else first_with b w.
Proof.
  unfold first_with; cbn.
  destruct (decide (v = w)) as [->|Hne].
  - rewrite bool_decide_eq_true_2 by reflexivity. reflexivity.
  - rewrite bool_decide_eq_false_2 by assumption. reflexivity.
Qed.

Lemma assigned_cons n v b n' :
  assigned ((n, v) :: b) n' = if decide (n = n') then Some v else assigned b n'.
Proof.
  unfold assigned; cbn.
  destruct (decide (n = n')) as [->|Hne].
  - rewrite bool_decide_eq_true_2 by reflexivity. reflexivity.
  - rewrite bool_decide_eq_false_2 by assumption. reflexivity.
Qed.

(** Lookup by value after running a class body: what was there before
    wins, otherwise the first assignment of the body with that value. *)
Lemma by_value_extend b : forall E E' w,
  extend E b = Some E' ->
  by_value E' w =
    match by_value E w with
    | Some m => Some m
    | None => first_with b w
    end.
Proof.
  induction b as [|[n v] rest IH]; intros E E' w; cbn [extend].
  - intros [= <-]. destruct (by_value E w); reflexivity.
  - destruct (define E n v) as [E1|] eqn:Hdef; [|discriminate].
    intros Hext. rewrite (IH _ _ w Hext), (define_by_value _ _ _ _ w Hdef).
    rewrite first_with_cons.
    destruct (by_value E w); [reflexivity|].
    destruct (decide (v = w)); reflexivity.
Qed.

Lemma by_value_extend_mono b E E' w m :
  extend E b = Some E' -> by_value E w = Some m -> by_value E' w = Some m.
Proof.
  intros Hext Hw. rewrite (by_value_extend _ _ _ w Hext), Hw. reflexivity.
Qed.

(** Lookup by name after running a class body: a name of the body
    resolves to the member its value has in the finished class. *)
Lemma by_name_extend b : forall E E' n,
  extend E b = Some E' ->
  by_name E' n =
    match by_name E n with
    | Some m => Some m
    | None => assigned b n ≫= by_value E'
    end.
Proof.
  induction b as [|[n0 v0] rest IH]; intros E E' n; cbn [extend].
  - intros [= <-]. destruct (by_name E n); reflexivity.
  - destruct (define E n0 v0) as [E1|] eqn:Hdef; [|discriminate].
    intros Hext. rewrite (IH _ _ n Hext). rewrite assigned_cons.
    destruct (define_by_name _ _ _ _ Hdef) as (Hfresh & m0 & Hm0 & Hmap).
    change (by_name E1 n) with (member_map E1 !! n).
    rewrite Hmap, lookup_insert.
    destruct (decide (n0 = n)) as [->|Hne].
    + rewrite Hfresh. cbn.
      symmetry. eapply by_value_extend_mono; eassumption.
    + change (member_map E !! n) with (by_name E n).
      destruct (by_name E n); reflexivity.
Qed.

(** [E(v)] is the first assignment with value [v]. *)
Lemma by_value_make b E v :
  make b = Some E -> by_value E v = first_with b v.
Proof.
  intros Hmk. rewrite (by_value_extend _ _ _ v Hmk).
  unfold by_value, empty; cbn. rewrite lookup_empty. reflexivity.
Qed.

(** [E[n]] is the first assignment with the value that [n] is assigned:
    a later name with a value seen before is an alias. *)
Lemma by_name_make b E n :
  make b = Some E -> by_name E n = assigned b n ≫= first_with b.
Proof.
  intros Hmk. rewrite (by_name_extend _ _ _ n Hmk).
  unfold by_name at 1, empty; cbn. rewrite lookup_empty.
  destruct (assigned b n) as [v|]; cbn; [|reflexivity].
  apply by_value_make, Hmk.
Qed.

(** Two names assigned the same value denote the same member. *)
Lemma same_value_same_member b E n1 n2 v :
  make b = Some E ->
  assigned b n1 = Some v -> assigned b n2 = Some v ->
  by_name E n1 = by_name E n2.
Proof.
  intros Hmk H1 H2.
  rewrite !(by_name_make _ _ _ Hmk), H1, H2. reflexivity.
Qed.

(** When no value is repeated, every assignment is found again under
    its value. *)
Lemma first_with_NoDup b n v :
  NoDup b.*2 -> (n, v) ∈ b -> first_with b v = Some (Member n v).
Proof.
  induction b as [|[n0 v0] rest IH]; intros Hnd Hin.
  - inversion Hin.
  - rewrite first_with_cons. cbn in Hnd. apply NoDup_cons in Hnd as [Hfresh Hnd].
    apply elem_of_cons in Hin as [[= -> ->]|Hin].
    + rewrite decide_True by reflexivity. reflexivity.
    + destruct (decide (v0 = v)) as [->|Hne].
      * exfalso. apply Hfresh. apply list_elem_of_fmap. exists (n, v). auto.
      * apply IH; assumption.
Qed.

Lemma by_value_inverse b E n v :
  make b = Some E -> NoDup b.*2 -> (n, v) ∈ b ->
  by_value E v = Some (Member n v).
Proof.
  intros Hmk Hnd Hin. rewrite (by_value_make _ _ _ Hmk).
  apply first_with_NoDup; assumption.
Qed.

(** What lookup by value finds is an assignment of the body with that
    value. *)
Lemma first_with_Some b v m :
  first_with b v = Some m -> (name m, value m) ∈ b /\ value m = v.
Proof.
  induction b as [|[n0 v0] rest IH]; [discriminate|].
  rewrite first_with_cons. destruct (decide (v0 = v)) as [->|Hne].
  - intros [= <-]. cbn. split; [apply list_elem_of_here | reflexivity].
  - intros Hrest. destruct (IH Hrest) as [Hin Hv].
    split; [apply list_elem_of_further, Hin | exact Hv].
Qed.

(** A class body that is accepted yields the class that [default] picks. *)
Lemma make_default b :
  is_Some (make b) -> make b = Some (default empty (make b)).
Proof. intros [E ->]. reflexivity. Qed.

End Facts.

End PyEnumFacts.

(** * More on lookups in a constructed enumeration *)

Module PyEnumLookup.

Import PyEnum.

Section Lookup.

Context {V : Type} `{Countable V}.

Implicit Types (E : EnumType V) (b : body V) (n : string) (v : V).

(** No assignment carries [v] exactly when the search for it fails. *)
Lemma first_with_None b v : first_with b v = None <-> v ∉ b.*2.
Proof.
  induction b as [|[n0 v0] rest IH].
  - split; [intros _; apply not_elem_of_nil | reflexivity].
  - rewrite PyEnumFacts.first_with_cons. cbn [fmap list_fmap snd].
    rewrite not_elem_of_cons. destruct (decide (v0 = v)) as [->|Hne].
    + split; [discriminate | intros [Hne _]; congruence].
    + rewrite IH. split; [intros Hr; split; [congruence | exact Hr] | intros [_ Hr]; exact Hr].
Qed.

Lemma first_with_is_Some b v : is_Some (first_with b v) <-> v ∈ b.*2.
Proof.
  rewrite <- not_eq_None_Some, first_with_None.
  split; [apply dec_stable | intros Hin Hnot; exact (Hnot Hin)].
Qed.

Lemma assigned_Some b n v : assigned b n = Some v -> (n, v) ∈ b.
Proof.
  induction b as [|[n0 v0] rest IH]; [discriminate|].
  rewrite PyEnumFacts.assigned_cons. destruct (decide (n0 = n)) as [->|Hne].
  - intros [= ->]. apply list_elem_of_here.
  - intros Hr. apply list_elem_of_further, IH, Hr.
Qed.

Lemma assigned_None b n : assigned b n = None <-> n ∉ b.*1.
Proof.
  induction b as [|[n0 v0] rest IH].
  - split; [intros _; apply not_elem_of_nil | reflexivity].
  - rewrite PyEnumFacts.assigned_cons. cbn [fmap list_fmap fst].
    rewrite not_elem_of_cons. destruct (decide (n0 = n)) as [->|Hne].
    + split; [discriminate | intros [Hne _]; congruence].
    + rewrite IH. split; [intros Hr; split; [congruence | exact Hr] | intros [_ Hr]; exact Hr].
Qed.

(** [E(v)] fails exactly on the values that no assignment carries, and
    what it returns carries the value asked for. *)
Lemma by_value_is_Some b E v :
  make b = Some E -> (is_Some (by_value E v) <-> v ∈ b.*2).
Proof.
  intros Hmk. rewrite (PyEnumFacts.by_value_make _ _ _ Hmk).
  apply first_with_is_Some.
Qed.

Lemma by_value_Some b E v m :
  make b = Some E -> by_value E v = Some m ->
  (name m, v) ∈ b /\ value m = v.
Proof.
  intros Hmk. rewrite (PyEnumFacts.by_value_make _ _ _ Hmk). intros Hf.
  apply PyEnumFacts.first_with_Some in Hf as [Hin Hv]. rewrite Hv in Hin. auto.
Qed.

(** [E[n]] answers for the names of the class body only, with a member
    that carries the value assigned to the name. *)
Lemma by_name_Some b E n m :
  make b = Some E -> by_name E n = Some m ->
  (n, value m) ∈ b /\ first_with b (value m) = Some m.
Proof.
  intros Hmk. rewrite (PyEnumFacts.by_name_make _ _ _ Hmk).
  destruct (assigned b n) as [v|] eqn:Ha; [cbn|discriminate].
  intros Hf. destruct (PyEnumFacts.first_with_Some _ _ _ Hf) as [_ Hv].
  subst v. split; [apply assigned_Some, Ha | exact Hf].
Qed.

Lemma by_name_None b E n :
  make b = Some E -> n ∉ b.*1 -> by_name E n = None.
Proof.
  intros Hmk Hn. rewrite (PyEnumFacts.by_name_make _ _ _ Hmk).
  apply assigned_None in Hn. rewrite Hn. reflexivity.
Qed.

End Lookup.

(** Searching a mapped list. *)
Lemma find_map {A B : Type} (g : A -> B) (p : B -> bool) (l : list A) :
  List.find p (map g l) = g <$> List.find (fun a => p (g a)) l.
Proof.
  induction l as [|a l IH]; [reflexivity|].
  cbn. destruct (p (g a)); [reflexivity | exact IH].
Qed.

End PyEnumLookup.

(** * The module's constants *)

(** C3: the retry ceiling [DEFAULT_ATTEMPTS] is 0xFFFF, that is 65535, the
    largest value of an unsigned 16-bit counter. *)
Theorem DEFAULT_ATTEMPTS_value :
  DEFAULT_ATTEMPTS = 0xFFFF /\ DEFAULT_ATTEMPTS = 65535 /\ DEFAULT_ATTEMPTS = 2 ^ 16 - 1.
Proof. unfold DEFAULT_ATTEMPTS. repeat split. Qed.

(** C4: the notify, write and service UUIDs are the short forms 00002b10,
    00002b11 and 0000a201 followed by the Bluetooth base UUID suffix, and
    the default MTU [GATT_MTU] is 20. *)
Theorem transport_constants :
  CHARACTERISTIC_NOTIFY = "00002b10" +:+ bluetooth_base_suffix /\
  CHARACTERISTIC_WRITE = "00002b11" +:+ bluetooth_base_suffix /\
  SERVICE_UUID = "0000a201" +:+ bluetooth_base_suffix /\
  String.prefix "00002b10" CHARACTERISTIC_NOTIFY = true /\
  String.prefix "00002b11" CHARACTERISTIC_WRITE = true /\
  String.prefix "0000a201" SERVICE_UUID = true /\
  GATT_MTU = 20.
Proof. repeat split. Qed.

(** C5: the timeout constant [RESPONSE_WAIT_TIMEOUT] is 60. *)
Theorem RESPONSE_WAIT_TIMEOUT_value : RESPONSE_WAIT_TIMEOUT = 60.
Proof. reflexivity. Qed.

(** C6: the manufacturer data identifier [MANUFACTURER_DATA_ID] is 0x07D0,
    that is 2000, and fits in 16 bits. *)
Theorem MANUFACTURER_DATA_ID_value :
  MANUFACTURER_DATA_ID = 0x07D0 /\ MANUFACTURER_DATA_ID = 2000 /\
  0 <= MANUFACTURER_DATA_ID < 2 ^ 16.
Proof. unfold MANUFACTURER_DATA_ID. lia. Qed.

(** * The enumerations as Python builds them *)

Lemma TuyaBLECode_make : PyEnum.make TuyaBLECode_body = Some TuyaBLECode_class.
Proof. apply PyEnumFacts.make_default, (bool_decide_unpack _). vm_compute. exact I. Qed.

Lemma TuyaBLEDataPointType_make :
  PyEnum.make TuyaBLEDataPointType_body = Some TuyaBLEDataPointType_class.
Proof. apply PyEnumFacts.make_default, (bool_decide_unpack _). vm_compute. exact I. Qed.

Lemma TuyaDataPointCode_make :
  PyEnum.make TuyaDataPointCode_body = Some TuyaDataPointCode_class.
Proof. apply PyEnumFacts.make_default, (bool_decide_unpack _). vm_compute. exact I. Qed.

Lemma TuyaDataPointType_make :
  PyEnum.make TuyaDataPointType_body = Some TuyaDataPointType_class.
Proof. apply PyEnumFacts.make_default, (bool_decide_unpack _). vm_compute. exact I. Qed.

(** No name of [TuyaBLECode] is an alias: the members are the
    assignments of the class body, in order. *)
Lemma TuyaBLECode_members :
  PyEnum.members TuyaBLECode_class =
  map (fun c => PyEnum.Member (TuyaBLECode_name c) (TuyaBLECode_value c))
      TuyaBLECode_declared.
Proof. vm_compute. reflexivity. Qed.

Lemma TuyaBLEDataPointType_members :
  PyEnum.members TuyaBLEDataPointType_class =
  map (fun t => PyEnum.Member (TuyaBLEDataPointType_name t) (TuyaBLEDataPointType_value t))
      TuyaBLEDataPointType_declared.
Proof. vm_compute. reflexivity. Qed.

Lemma TuyaBLECode_declared_complete (c : TuyaBLECode) : In c TuyaBLECode_declared.
Proof. destruct c; cbn; tauto. Qed.

Lemma TuyaBLECode_in_members (m : PyEnum.member Z) :
  In m (PyEnum.members TuyaBLECode_class) ->
  exists c, m = PyEnum.Member (TuyaBLECode_name c) (TuyaBLECode_value c).
Proof.
  rewrite TuyaBLECode_members. intros Hin.
  apply in_map_iff in Hin as (c & <- & _). exists c. reflexivity.
Qed.

Lemma TuyaBLECode_value_bounds (c : TuyaBLECode) : 0 <= TuyaBLECode_value c < 2 ^ 16.
Proof. destruct c; cbn; lia. Qed.

Lemma TuyaBLECode_value_inj (c d : TuyaBLECode) :
  TuyaBLECode_value c = TuyaBLECode_value d -> c = d.
Proof. destruct c, d; cbn; intros Heq; first [reflexivity | discriminate Heq]. Qed.

Lemma TuyaBLECode_of_value_value (c : TuyaBLECode) :
  TuyaBLECode_of_value (TuyaBLECode_value c) = Some c.
Proof. destruct c; vm_compute; reflexivity. Qed.

Lemma TuyaBLECode_name_inj (c d : TuyaBLECode) :
  TuyaBLECode_name c = TuyaBLECode_name d -> c = d.
Proof. destruct c, d; cbn; intros Heq; first [reflexivity | discriminate Heq]. Qed.

(** [TuyaBLECode(v)] answers with a member whose value is [v]. *)
Lemma TuyaBLECode_of_value_Some (v : Z) (f : TuyaBLECode) :
  TuyaBLECode_of_value v = Some f -> TuyaBLECode_value f = v.
Proof.
  unfold TuyaBLECode_of_value.
  rewrite (PyEnumFacts.by_value_make _ _ _ TuyaBLECode_make).
  destruct (PyEnum.first_with TuyaBLECode_body v) as [m|] eqn:Hm; [|discriminate].
  apply PyEnumFacts.first_with_Some in Hm as [Hin <-].
  intros Hname. apply find_some in Hname as [_ Hname].
  apply bool_decide_eq_true_1 in Hname.
  apply list_elem_of_In, in_map_iff in Hin as (c & [= Hn Hv] & _).
  rewrite <- Hn in Hname. apply TuyaBLECode_name_inj in Hname as ->.
  exact Hv.
Qed.

(** * Function codes *)

Lemma TuyaBLECode_body_values_NoDup : NoDup TuyaBLECode_body.*2.
Proof.
  apply (bool_decide_unpack _). vm_compute. exact I.
Qed.

(** A name the class answers for is the name of a function code, and the
    answer is that code's own member. *)
Lemma TuyaBLECode_by_name_Some (n : string) (m : PyEnum.member Z) :
  PyEnum.by_name TuyaBLECode_class n = Some m ->
  exists c, TuyaBLECode_name c = n /\
            m = PyEnum.Member (TuyaBLECode_name c) (TuyaBLECode_value c).
Proof.
  intros Hn.
  destruct (PyEnumLookup.by_name_Some _ _ _ _ TuyaBLECode_make Hn) as [Hin Hf].
  apply list_elem_of_In, in_map_iff in Hin as (c & [= Hc Hv] & Hdecl).
  exists c. split; [exact Hc|].
  rewrite <- Hv in Hf.
  rewrite (PyEnumFacts.first_with_NoDup TuyaBLECode_body (TuyaBLECode_name c)) in Hf.
  - injection Hf as <-. reflexivity.
  - exact TuyaBLECode_body_values_NoDup.
  - apply list_elem_of_In.
    apply (in_map (fun c => (TuyaBLECode_name c, TuyaBLECode_value c))). exact Hdecl.
Qed.

(** C1: every name of [TuyaBLECode] that begins with FUN_SENDER_ carries a
    value in 0x0000..0x0027 and every name that begins with FUN_RECEIVE_ a
    value in 0x8001..0x8012; this holds for the constructors of the closed
    type, for the names the class answers for (where the member found bears
    the name asked for) and for the members of the class.  No integer lies
    in both ranges, so no sender value is a receiver value. *)
Theorem TuyaBLECode_sender_receiver_ranges :
  (forall c, is_sender_name (TuyaBLECode_name c) = true ->
     0x0000 <= TuyaBLECode_value c <= 0x0027) /\
  (forall c, is_receiver_name (TuyaBLECode_name c) = true ->
     0x8001 <= TuyaBLECode_value c <= 0x8012) /\
  (forall n m, PyEnum.by_name TuyaBLECode_class n = Some m ->
     is_sender_name n = true ->
     PyEnum.name m = n /\ 0x0000 <= PyEnum.value m <= 0x0027) /\
  (forall n m, PyEnum.by_name TuyaBLECode_class n = Some m ->
     is_receiver_name n = true ->
     PyEnum.name m = n /\ 0x8001 <= PyEnum.value m <= 0x8012) /\
  (forall m, In m (PyEnum.members TuyaBLECode_class) ->
     is_sender_name (PyEnum.name m) = true ->
     0x0000 <= PyEnum.value m <= 0x0027) /\
  (forall m, In m (PyEnum.members TuyaBLECode_class) ->
     is_receiver_name (PyEnum.name m) = true ->
     0x8001 <= PyEnum.value m <= 0x8012) /\
  (forall v : Z, ~ (0x0000 <= v <= 0x0027 /\ 0x8001 <= v <= 0x8012)) /\
  (forall s r, is_sender_name (TuyaBLECode_name s) = true ->
     is_receiver_name (TuyaBLECode_name r) = true ->
     TuyaBLECode_value s <> TuyaBLECode_value r).
Proof.
  assert (Hs : forall c, is_sender_name (TuyaBLECode_name c) = true ->
     0x0000 <= TuyaBLECode_value c <= 0x0027).
  { intros c. destruct c; cbn; intros Hp; first [discriminate Hp | lia]. }
  assert (Hr : forall c, is_receiver_name (TuyaBLECode_name c) = true ->
     0x8001 <= TuyaBLECode_value c <= 0x8012).
  { intros c. destruct c; cbn; intros Hp; first [discriminate Hp | lia]. }
  split; [exact Hs|]. split; [exact Hr|]. split; [|split; [|split; [|split; [|split]]]].
  - intros n m Hn Hp. apply TuyaBLECode_by_name_Some in Hn as (c & <- & ->).
    split; [reflexivity | exact (Hs c Hp)].
  - intros n m Hn Hp. apply TuyaBLECode_by_name_Some in Hn as (c & <- & ->).
    split; [reflexivity | exact (Hr c Hp)].
  - intros m Hin Hp. apply TuyaBLECode_in_members in Hin as [c ->]. exact (Hs c Hp).
  - intros m Hin Hp. apply TuyaBLECode_in_members in Hin as [c ->]. exact (Hr c Hp).
  - lia.
  - intros s r Hsn Hrn Heq. specialize (Hs s Hsn). specialize (Hr r Hrn). lia.
Qed.

Lemma TuyaBLECode_sender_receiver_ranges_witness :
  (is_receiver_name (TuyaBLECode_name FUN_RECEIVE_DP) = true /\
   0x8001 <= TuyaBLECode_value FUN_RECEIVE_DP <= 0x8012) /\
  (is_sender_name (TuyaBLECode_name FUN_SENDER_DPS_V4) = true /\
   0x0000 <= TuyaBLECode_value FUN_SENDER_DPS_V4 <= 0x0027) /\
  (PyEnum.by_name TuyaBLECode_class "FUN_RECEIVE_TIME2_REQ" =
     Some (PyEnum.Member "FUN_RECEIVE_TIME2_REQ" 0x8012) /\
   is_receiver_name "FUN_RECEIVE_TIME2_REQ" = true /\
   0x8001 <= 0x8012 <= 0x8012) /\
  TuyaBLECode_value FUN_SENDER_DPS_V4 <> TuyaBLECode_value FUN_RECEIVE_DP.
Proof.
  pose proof TuyaBLECode_sender_receiver_ranges
    as (Hs & Hr & _ & Hnr & _ & _ & _ & Hdisj).
  assert (Hn : PyEnum.by_name TuyaBLECode_class "FUN_RECEIVE_TIME2_REQ" =
               Some (PyEnum.Member "FUN_RECEIVE_TIME2_REQ" 0x8012))
    by (vm_compute; reflexivity).
  split; [split; [reflexivity | exact (Hr FUN_RECEIVE_DP eq_refl)]|].
  split; [split; [reflexivity | exact (Hs FUN_SENDER_DPS_V4 eq_refl)]|].
  split.
  - split; [exact Hn|]. split; [reflexivity|].
    exact (proj2 (Hnr "FUN_RECEIVE_TIME2_REQ" _ Hn eq_refl)).
  - exact (Hdisj FUN_SENDER_DPS_V4 FUN_RECEIVE_DP eq_refl eq_refl).
Defined.

Lemma TuyaBLECode_members_body (m : PyEnum.member Z) :
  In m (PyEnum.members TuyaBLECode_class) ->
  (PyEnum.name m, PyEnum.value m) ∈ TuyaBLECode_body.
Proof.
  intros Hin. apply TuyaBLECode_in_members in Hin as [c ->].
  cbn [PyEnum.name PyEnum.value].
  apply list_elem_of_In. unfold TuyaBLECode_body.
  apply (in_map (fun c => (TuyaBLECode_name c, TuyaBLECode_value c))).
  apply TuyaBLECode_declared_complete.
Qed.

(** C9 (as the code has it): the 20 members of [TuyaBLECode] have pairwise
    distinct values, and looking up a member's value yields that member. *)
Theorem TuyaBLECode_twenty_distinct_values : TuyaBLECode_value_lookup_inverse 20.
Proof.
  unfold TuyaBLECode_value_lookup_inverse. split; [|split; [|split]].
  - rewrite TuyaBLECode_members. reflexivity.
  - rewrite TuyaBLECode_members, map_map. cbn [PyEnum.value].
    exact TuyaBLECode_body_values_NoDup.
  - intros [n v] Hin.
    apply (PyEnumFacts.by_value_inverse TuyaBLECode_body);
      [exact TuyaBLECode_make | exact TuyaBLECode_body_values_NoDup |].
    exact (TuyaBLECode_members_body _ Hin).
  - exact TuyaBLECode_of_value_value.
Qed.

Lemma TuyaBLECode_twenty_distinct_values_witness :
  In (PyEnum.Member "FUN_RECEIVE_DP" 0x8001) (PyEnum.members TuyaBLECode_class) /\
  PyEnum.by_value TuyaBLECode_class 0x8001 = Some (PyEnum.Member "FUN_RECEIVE_DP" 0x8001).
Proof.
  assert (Hin : In (PyEnum.Member "FUN_RECEIVE_DP" 0x8001)
                   (PyEnum.members TuyaBLECode_class)).
  { vm_compute. tauto. }
  split; [exact Hin|].
  exact (proj1 (proj2 (proj2 TuyaBLECode_twenty_distinct_values))
           (PyEnum.Member "FUN_RECEIVE_DP" 0x8001) Hin).
Defined.

(** C9 as stated fails: the class does not have 21 members. *)
Lemma TuyaBLECode_not_twenty_one : ~ TuyaBLECode_value_lookup_inverse 21.
Proof.
  intros [Hlen _]. rewrite TuyaBLECode_members in Hlen. discriminate Hlen.
Qed.

(** * Data point types *)

(** C10: the values of [TuyaBLEDataPointType] are 0, 1, 2, 3, 4, 5 in
    declaration order (DT_RAW, DT_BOOL, DT_VALUE, DT_STRING, DT_ENUM,
    DT_BITMAP), without gap or repetition. *)
Theorem TuyaBLEDataPointType_values_consecutive :
  PyEnum.members TuyaBLEDataPointType_class =
    [ PyEnum.Member "DT_RAW" 0; PyEnum.Member "DT_BOOL" 1; PyEnum.Member "DT_VALUE" 2;
      PyEnum.Member "DT_STRING" 3; PyEnum.Member "DT_ENUM" 4; PyEnum.Member "DT_BITMAP" 5 ] /\
  map TuyaBLEDataPointType_value TuyaBLEDataPointType_declared = seqZ 0 6 /\
  map PyEnum.value (PyEnum.members TuyaBLEDataPointType_class) = seqZ 0 6 /\
  NoDup (map PyEnum.value (PyEnum.members TuyaBLEDataPointType_class)) /\
  (TuyaBLEDataPointType_value DT_RAW = 0 /\ TuyaBLEDataPointType_value DT_BOOL = 1 /\
   TuyaBLEDataPointType_value DT_VALUE = 2 /\ TuyaBLEDataPointType_value DT_STRING = 3 /\
   TuyaBLEDataPointType_value DT_ENUM = 4 /\ TuyaBLEDataPointType_value DT_BITMAP = 5).
Proof.
  assert (Hv : map PyEnum.value (PyEnum.members TuyaBLEDataPointType_class) = seqZ 0 6).
  { rewrite TuyaBLEDataPointType_members. reflexivity. }
  split; [rewrite TuyaBLEDataPointType_members; reflexivity|].
  split; [reflexivity|]. split; [exact Hv|]. split.
  - rewrite Hv. apply NoDup_seqZ.
  - repeat split.
Qed.

Lemma TuyaDataPointType_vocabulary_eq :
  TuyaDataPointType_vocabulary = [ "Boolean"; "Enum"; "Integer"; "Json"; "Raw"; "String" ].
Proof. vm_compute. reflexivity. Qed.

Lemma Json_not_in_spec_vocabulary : "Json" ∉ Spec.vocabulary.
Proof. apply (bool_decide_unpack _). vm_compute. exact I. Qed.

Lemma TuyaBLEDataPointType_vocabulary_eq :
  TuyaBLEDataPointType_vocabulary = [ "Raw"; "Boolean"; "Integer"; "String"; "Enum"; "Bitmap" ].
Proof. vm_compute. reflexivity. Qed.

(** C2 (as the code has it): [TuyaBLEDataPointType] has the six members
    DT_RAW, DT_BOOL, DT_VALUE, DT_STRING, DT_ENUM and DT_BITMAP, which name
    one for one the variants Raw, Boolean, Integer(Value), String, Enum and
    Bitmap; [TuyaDataPointType] has the six members BOOLEAN, ENUM, INTEGER,
    JSON, RAW and STRING, whose vocabulary (their values) is Boolean, Enum,
    Integer, Json, Raw and String, that is Json in the place of Bitmap. *)
Theorem data_point_type_vocabularies :
  map PyEnum.name (PyEnum.members TuyaBLEDataPointType_class) =
    [ "DT_RAW"; "DT_BOOL"; "DT_VALUE"; "DT_STRING"; "DT_ENUM"; "DT_BITMAP" ] /\
  map (fun m => variant_of_word (data_point_type_word (PyEnum.name m)))
      (PyEnum.members TuyaBLEDataPointType_class) = map Some Spec.all_variants /\
  Spec.is_spec_vocabulary TuyaBLEDataPointType_vocabulary /\
  map PyEnum.name (PyEnum.members TuyaDataPointType_class) =
    [ "BOOLEAN"; "ENUM"; "INTEGER"; "JSON"; "RAW"; "STRING" ] /\
  TuyaDataPointType_vocabulary = map PyEnum.value (PyEnum.members TuyaDataPointType_class) /\
  TuyaDataPointType_vocabulary ≡ₚ [ "Boolean"; "Enum"; "Integer"; "Json"; "Raw"; "String" ] /\
  variant_of_word "Json" = None /\
  ("Json" ∉ Spec.vocabulary) /\
  ("Bitmap" ∉ TuyaDataPointType_vocabulary) /\
  ~ Spec.is_spec_vocabulary TuyaDataPointType_vocabulary.
Proof.
  split; [vm_compute; reflexivity|].
  split; [vm_compute; reflexivity|].
  split; [unfold Spec.is_spec_vocabulary; rewrite TuyaBLEDataPointType_vocabulary_eq;
          reflexivity|].
  split; [vm_compute; reflexivity|].
  split; [vm_compute; reflexivity|].
  split; [rewrite TuyaDataPointType_vocabulary_eq; reflexivity|].
  split; [reflexivity|].
  split; [exact Json_not_in_spec_vocabulary|].
  split.
  - rewrite TuyaDataPointType_vocabulary_eq.
    apply (bool_decide_unpack _). vm_compute. exact I.
  - intros Hperm. apply Json_not_in_spec_vocabulary.
    unfold Spec.is_spec_vocabulary in Hperm. rewrite <- Hperm.
    rewrite TuyaDataPointType_vocabulary_eq.
    do 3 apply list_elem_of_further. apply list_elem_of_here.
Qed.

(** C2 as stated fails: [TuyaDataPointType] does not expose the six
    variants of the specification, because Json is one of its values. *)
Lemma TuyaDataPointType_not_spec_vocabulary :
  ~ (Spec.is_spec_vocabulary TuyaBLEDataPointType_vocabulary /\
     Spec.is_spec_vocabulary TuyaDataPointType_vocabulary).
Proof.
  intros [_ Hperm]. apply Json_not_in_spec_vocabulary.
  unfold Spec.is_spec_vocabulary in Hperm. rewrite <- Hperm.
  rewrite TuyaDataPointType_vocabulary_eq.
  do 3 apply list_elem_of_further. apply list_elem_of_here.
Qed.

(** * Data point codes *)

(** C8: the class body of [TuyaDataPointCode] assigns the string "filter"
    to both FILTER and FILTER_LIFE, so names do not determine values
    injectively; FILTER_LIFE is an alias of the member FILTER, it is no
    member of its own, and looking up "filter" yields the member FILTER
    whichever of the two names the string came from. *)
Theorem TuyaDataPointCode_FILTER_LIFE_alias :
  PyEnum.assigned TuyaDataPointCode_body "FILTER" = Some "filter" /\
  PyEnum.assigned TuyaDataPointCode_body "FILTER_LIFE" = Some "filter" /\
  ~ (forall n1 n2 v,
       PyEnum.assigned TuyaDataPointCode_body n1 = Some v ->
       PyEnum.assigned TuyaDataPointCode_body n2 = Some v -> n1 = n2) /\
  PyEnum.by_name TuyaDataPointCode_class "FILTER_LIFE" =
    PyEnum.by_name TuyaDataPointCode_class "FILTER" /\
  PyEnum.by_name TuyaDataPointCode_class "FILTER" =
    Some (PyEnum.Member "FILTER" "filter") /\
  PyEnum.by_value TuyaDataPointCode_class "filter" =
    Some (PyEnum.Member "FILTER" "filter") /\
  ("FILTER_LIFE" ∉ PyEnum.member_names TuyaDataPointCode_class) /\
  ("FILTER" ∈ PyEnum.member_names TuyaDataPointCode_class).
Proof.
  assert (H1 : PyEnum.assigned TuyaDataPointCode_body "FILTER" = Some "filter")
    by (vm_compute; reflexivity).
  assert (H2 : PyEnum.assigned TuyaDataPointCode_body "FILTER_LIFE" = Some "filter")
    by (vm_compute; reflexivity).
  split; [exact H1|]. split; [exact H2|]. split.
  { intros Hinj. discriminate (Hinj _ _ _ H1 H2). }
  split.
  { exact (PyEnumFacts.same_value_same_member _ _ _ _ _ TuyaDataPointCode_make H2 H1). }
  split.
  { rewrite (PyEnumFacts.by_name_make _ _ _ TuyaDataPointCode_make), H1.
    vm_compute. reflexivity. }
  split.
  { rewrite (PyEnumFacts.by_value_make _ _ _ TuyaDataPointCode_make).
    vm_compute. reflexivity. }
  split; apply (bool_decide_unpack _); vm_compute; exact I.
Qed.

(** * The catalogue of data point codes, as a user meets it *)

Lemma TuyaDataPointCode_body_first_with :
  Forall (fun nv => nv.1 = "FILTER_LIFE" \/
            PyEnum.first_with TuyaDataPointCode_body nv.2 = Some (PyEnum.Member nv.1 nv.2))
         TuyaDataPointCode_body.
Proof. apply (bool_decide_unpack _). vm_compute. exact I. Qed.

(** X1: looking a name up in [TuyaDataPointCode] answers only for names of
    the class body, with a member carrying the value assigned to the name;
    the member bears the name looked up, except for FILTER_LIFE, which
    yields the member FILTER. *)
Theorem TuyaDataPointCode_by_name (n : string) (m : PyEnum.member string) :
  PyEnum.by_name TuyaDataPointCode_class n = Some m ->
  (n, PyEnum.value m) ∈ TuyaDataPointCode_body /\
  (PyEnum.name m = n \/ (n = "FILTER_LIFE" /\ m = PyEnum.Member "FILTER" "filter")).
Proof.
  intros Hn.
  destruct (PyEnumLookup.by_name_Some _ _ _ _ TuyaDataPointCode_make Hn) as [Hin Hf].
  split; [exact Hin|].
  pose proof TuyaDataPointCode_body_first_with as Hall.
  rewrite Forall_forall in Hall. destruct (Hall _ Hin) as [Hlife|Hown]; cbn [fst snd] in *.
  - right. split; [exact Hlife|]. subst n.
    rewrite (PyEnumFacts.by_name_make _ _ _ TuyaDataPointCode_make) in Hn.
    vm_compute in Hn. congruence.
  - left. rewrite Hf in Hown. injection Hown as ->. reflexivity.
Qed.

Lemma TuyaDataPointCode_by_name_witness :
  PyEnum.by_name TuyaDataPointCode_class "FILTER_LIFE" = Some (PyEnum.Member "FILTER" "filter") /\
  ("FILTER_LIFE", "filter") ∈ TuyaDataPointCode_body /\
  ("FILTER" = "FILTER_LIFE" \/
   ("FILTER_LIFE" = "FILTER_LIFE" /\ PyEnum.Member "FILTER" "filter" = PyEnum.Member "FILTER" "filter")).
Proof.
  assert (Hn : PyEnum.by_name TuyaDataPointCode_class "FILTER_LIFE" =
               Some (PyEnum.Member "FILTER" "filter")) by (vm_compute; reflexivity).
  split; [exact Hn|].
  exact (TuyaDataPointCode_by_name "FILTER_LIFE" (PyEnum.Member "FILTER" "filter") Hn).
Defined.

Lemma TuyaDataPointCode_members_found :
  Forall (fun m => PyEnum.by_value TuyaDataPointCode_class (PyEnum.value m) = Some m /\
                   PyEnum.by_name TuyaDataPointCode_class (PyEnum.name m) = Some m)
         (PyEnum.members TuyaDataPointCode_class).
Proof. apply (bool_decide_unpack _). vm_compute. exact I. Qed.

(** X2: [TuyaDataPointCode] has 280 members for the 281 names of its
    class body, and each member is found again under its own value and
    under its own name. *)
Theorem TuyaDataPointCode_member_round_trip (m : PyEnum.member string) :
  m ∈ PyEnum.members TuyaDataPointCode_class ->
  length TuyaDataPointCode_body = 281%nat /\
  length (PyEnum.members TuyaDataPointCode_class) = 280%nat /\
  PyEnum.by_value TuyaDataPointCode_class (PyEnum.value m) = Some m /\
  PyEnum.by_name TuyaDataPointCode_class (PyEnum.name m) = Some m.
Proof.
  intros Hin. split; [reflexivity|]. split; [vm_compute; reflexivity|].
  pose proof TuyaDataPointCode_members_found as Hall.
  rewrite Forall_forall in Hall. exact (Hall _ Hin).
Qed.

Lemma TuyaDataPointCode_member_round_trip_witness :
  PyEnum.Member "PM25_VALUE" "pm25_value" ∈ PyEnum.members TuyaDataPointCode_class /\
  PyEnum.by_value TuyaDataPointCode_class "pm25_value" =
    Some (PyEnum.Member "PM25_VALUE" "pm25_value").
Proof.
  assert (Hin : PyEnum.Member "PM25_VALUE" "pm25_value"
                  ∈ PyEnum.members TuyaDataPointCode_class).
  { apply (bool_decide_unpack _). vm_compute. exact I. }
  split; [exact Hin|].
  exact (proj1 (proj2 (proj2 (TuyaDataPointCode_member_round_trip _ Hin)))).
Defined.

(** X3: [TuyaDataPointCode(v)] succeeds exactly for the strings that some
    assignment of the class body carries, and then returns a member whose
    value is [v]; a string outside the catalogue, such as "filter_life", is
    rejected. *)
Theorem TuyaDataPointCode_by_value (v : string) :
  (is_Some (PyEnum.by_value TuyaDataPointCode_class v) <-> v ∈ TuyaDataPointCode_body.*2) /\
  (forall m, PyEnum.by_value TuyaDataPointCode_class v = Some m ->
     PyEnum.value m = v /\ (PyEnum.name m, v) ∈ TuyaDataPointCode_body) /\
  PyEnum.by_value TuyaDataPointCode_class "filter_life" = None.
Proof.
  split; [apply PyEnumLookup.by_value_is_Some, TuyaDataPointCode_make|].
  split.
  - intros m Hm.
    destruct (PyEnumLookup.by_value_Some _ _ _ _ TuyaDataPointCode_make Hm); auto.
  - vm_compute. reflexivity.
Qed.

Lemma TuyaDataPointCode_by_value_witness :
  PyEnum.by_value TuyaDataPointCode_class "filter" = Some (PyEnum.Member "FILTER" "filter") /\
  "filter" = "filter" /\ ("FILTER", "filter") ∈ TuyaDataPointCode_body.
Proof.
  assert (Hv : PyEnum.by_value TuyaDataPointCode_class "filter" =
               Some (PyEnum.Member "FILTER" "filter")) by (vm_compute; reflexivity).
  split; [exact Hv|].
  exact (proj1 (proj2 (TuyaDataPointCode_by_value "filter")) _ Hv).
Defined.

(** * Function codes and BLE data point types, as a user meets them *)

(** X4: [TuyaBLECode(v)] returns the member whose value is [v] and no
    other; an integer outside 0x0000..0x0027 and 0x8001..0x8012 is no
    function code and is rejected. *)
Theorem TuyaBLECode_of_value_spec (v : Z) :
  (forall c, TuyaBLECode_of_value v = Some c <-> TuyaBLECode_value c = v) /\
  (is_Some (TuyaBLECode_of_value v) <-> v ∈ map TuyaBLECode_value TuyaBLECode_declared) /\
  (~ (0x0000 <= v <= 0x0027) -> ~ (0x8001 <= v <= 0x8012) ->
   TuyaBLECode_of_value v = None).
Proof.
  assert (Hiff : forall c, TuyaBLECode_of_value v = Some c <-> TuyaBLECode_value c = v).
  { intros c. split; [apply TuyaBLECode_of_value_Some|].
    intros <-. apply TuyaBLECode_of_value_value. }
  split; [exact Hiff|]. split.
  - split.
    + intros [c Hc]. apply Hiff in Hc as <-.
      apply list_elem_of_In, in_map, TuyaBLECode_declared_complete.
    + intros Hin. apply list_elem_of_In, in_map_iff in Hin as (c & Hc & _).
      exists c. apply Hiff, Hc.
  - intros Hs Hr. destruct (TuyaBLECode_of_value v) as [c|] eqn:Hc; [|reflexivity].
    apply TuyaBLECode_of_value_Some in Hc. exfalso. destruct c; cbn in Hc; lia.
Qed.

Lemma TuyaBLECode_of_value_spec_witness :
  ~ (0x0000 <= 0x8000 <= 0x0027) /\ ~ (0x8001 <= 0x8000 <= 0x8012) /\
  TuyaBLECode_of_value 0x8000 = None.
Proof.
  assert (Hs : ~ (0x0000 <= 0x8000 <= 0x0027)) by lia.
  assert (Hr : ~ (0x8001 <= 0x8000 <= 0x8012)) by lia.
  split; [exact Hs|]. split; [exact Hr|].
  exact (proj2 (proj2 (TuyaBLECode_of_value_spec 0x8000)) Hs Hr).
Defined.

Lemma TuyaBLECode_assigned (n : string) :
  PyEnum.assigned TuyaBLECode_body n = TuyaBLECode_value <$> TuyaBLECode_of_name n.
Proof.
  unfold PyEnum.assigned, TuyaBLECode_body, TuyaBLECode_of_name.
  rewrite PyEnumLookup.find_map. cbn [fst].
  destruct (List.find _ TuyaBLECode_declared); reflexivity.
Qed.

(** X5: [TuyaBLECode[n]] returns the member named [n] and no other, fails
    for every other string, and the name table of the class answers with
    the same member. *)
Theorem TuyaBLECode_of_name_spec (n : string) :
  (forall c, TuyaBLECode_of_name n = Some c <-> TuyaBLECode_name c = n) /\
  PyEnum.by_name TuyaBLECode_class n =
    (fun c => PyEnum.Member (TuyaBLECode_name c) (TuyaBLECode_value c))
      <$> TuyaBLECode_of_name n.
Proof.
  split.
  - intros c. split.
    + intros Hf. apply find_some in Hf as [_ Hf].
      apply bool_decide_eq_true_1 in Hf. exact Hf.
    + intros <-. destruct c; reflexivity.
  - rewrite (PyEnumFacts.by_name_make _ _ _ TuyaBLECode_make), TuyaBLECode_assigned.
    destruct (TuyaBLECode_of_name n) as [c|]; [|reflexivity].
    change (PyEnum.first_with TuyaBLECode_body (TuyaBLECode_value c) =
            Some (PyEnum.Member (TuyaBLECode_name c) (TuyaBLECode_value c))).
    apply PyEnumFacts.first_with_NoDup; [exact TuyaBLECode_body_values_NoDup|].
    apply list_elem_of_In.
    apply (in_map (fun c => (TuyaBLECode_name c, TuyaBLECode_value c))).
    apply TuyaBLECode_declared_complete.
Qed.

(** X6: every function code is a sender code or a receiver code and not
    both, and the receiver codes are exactly those with bit 15 set, that is
    with a value of 0x8000 or more. *)
Theorem TuyaBLECode_direction_bit (c : TuyaBLECode) :
  is_receiver_name (TuyaBLECode_name c) = Z.testbit (TuyaBLECode_value c) 15 /\
  is_sender_name (TuyaBLECode_name c) = negb (is_receiver_name (TuyaBLECode_name c)) /\
  (is_receiver_name (TuyaBLECode_name c) = true <-> 0x8000 <= TuyaBLECode_value c).
Proof.
  destruct c; (split; [reflexivity|]); (split; [reflexivity|]);
    cbn; split; first [lia | discriminate | reflexivity].
Qed.

Lemma TuyaBLEDataPointType_name_inj (s t : TuyaBLEDataPointType) :
  TuyaBLEDataPointType_name s = TuyaBLEDataPointType_name t -> s = t.
Proof. destruct s, t; cbn; intros Heq; first [reflexivity | discriminate Heq]. Qed.

Lemma TuyaBLEDataPointType_of_value_value (t : TuyaBLEDataPointType) :
  TuyaBLEDataPointType_of_value (TuyaBLEDataPointType_value t) = Some t.
Proof. destruct t; vm_compute; reflexivity. Qed.

Lemma TuyaBLEDataPointType_of_value_Some (v : Z) (t : TuyaBLEDataPointType) :
  TuyaBLEDataPointType_of_value v = Some t -> TuyaBLEDataPointType_value t = v.
Proof.
  unfold TuyaBLEDataPointType_of_value. intros Hv.
  destruct (PyEnum.by_value TuyaBLEDataPointType_class v) as [m|] eqn:Hm; [|discriminate].
  apply (PyEnumLookup.by_value_Some _ _ _ _ TuyaBLEDataPointType_make) in Hm as [Hin <-].
  apply find_some in Hv as [_ Hname]. apply bool_decide_eq_true_1 in Hname.
  apply list_elem_of_In, in_map_iff in Hin as (s & [= Hn Hval] & _).
  rewrite <- Hn in Hname. apply TuyaBLEDataPointType_name_inj in Hname as ->.
  exact Hval.
Qed.

(** X7: [TuyaBLEDataPointType(v)] returns the member whose value is [v],
    and it succeeds exactly for the integers 0 to 5. *)
Theorem TuyaBLEDataPointType_of_value_spec (v : Z) :
  (forall t, TuyaBLEDataPointType_of_value v = Some t <-> TuyaBLEDataPointType_value t = v) /\
  (is_Some (TuyaBLEDataPointType_of_value v) <-> 0 <= v <= 5).
Proof.
  assert (Hiff : forall t,
    TuyaBLEDataPointType_of_value v = Some t <-> TuyaBLEDataPointType_value t = v).
  { intros t. split; [apply TuyaBLEDataPointType_of_value_Some|].
    intros <-. apply TuyaBLEDataPointType_of_value_value. }
  split; [exact Hiff|]. split.
  - intros [t Ht]. apply Hiff in Ht as <-. destruct t; cbn; lia.
  - intros Hv.
    assert (Hcases : v = 0 \/ v = 1 \/ v = 2 \/ v = 3 \/ v = 4 \/ v = 5) by lia.
    destruct Hcases as [->|[->|[->|[->|[->| ->]]]]]; eexists; vm_compute; reflexivity.
Qed.

(** X8: the attribute tables in the docstrings agree with the class
    bodies: the docstring of [TuyaBLECode] lists the same 20 names with the
    same codes in the same order, and the docstring of
    [TuyaBLEDataPointType] the same six names in the same order. *)
Theorem docstrings_agree_with_class_bodies :
  TuyaBLECode_docstring = TuyaBLECode_body /\
  TuyaBLEDataPointType_docstring = TuyaBLEDataPointType_body.*1.
Proof. split; reflexivity. Qed.

(** X9: the function codes are declared in strictly increasing order of
    value. *)
Theorem TuyaBLECode_declared_increasing :
  StronglySorted Z.lt (map TuyaBLECode_value TuyaBLECode_declared).
Proof. apply (bool_decide_unpack _). vm_compute. exact I. Qed.

Lemma TuyaDataPointCode_body_spelling :
  Forall (fun nv => PyStr.is_constant_case nv.1 = true /\ PyStr.is_snake_case nv.2 = true)
         TuyaDataPointCode_body.
Proof. apply (bool_decide_unpack _). vm_compute. exact I. Qed.

(** X10: every name of the [TuyaDataPointCode] class body is an upper-case
    constant name and every value a lower-case identifier: a letter
    followed by letters, digits and underscores, never empty. *)
Theorem TuyaDataPointCode_spelling (n v : string) :
  (n, v) ∈ TuyaDataPointCode_body ->
  PyStr.is_constant_case n = true /\ PyStr.is_snake_case v = true.
Proof.
  intros Hin. pose proof TuyaDataPointCode_body_spelling as Hall.
  rewrite Forall_forall in Hall. exact (Hall _ Hin).
Qed.

Lemma TuyaDataPointCode_spelling_witness :
  ("CO2_VALUE", "co2_value") ∈ TuyaDataPointCode_body /\
  PyStr.is_constant_case "CO2_VALUE" = true /\ PyStr.is_snake_case "co2_value" = true.
Proof.
  assert (Hin : ("CO2_VALUE", "co2_value") ∈ TuyaDataPointCode_body).
  { apply (bool_decide_unpack _). vm_compute. exact I. }
  split; [exact Hin|].
  exact (TuyaDataPointCode_spelling "CO2_VALUE" "co2_value" Hin).
Defined.

Lemma TuyaDataPointCode_body_lowered :
  Forall (fun nv =>
            (nv.1 ∉ TuyaDataPointCode_irregular -> nv.2 = PyStr.lower nv.1) /\
            (nv.1 ∈ TuyaDataPointCode_irregular ->
             nv.2 <> PyStr.lower nv.1 /\
             PyEnum.by_value TuyaDataPointCode_class (PyStr.lower nv.1) = None))
         TuyaDataPointCode_body.
Proof. apply (bool_decide_unpack _). vm_compute. exact I. Qed.

(** X11: the value of a data point code is its name in lower case, for
    every name of the class body but DEHUMIDITY_SET_ENUM,
    DEHUMIDITY_SET_VALUE and FILTER_LIFE; for these three the lower-case
    name is not a value of the enumeration at all. *)
Theorem TuyaDataPointCode_value_is_lowered_name (n v : string) :
  (n, v) ∈ TuyaDataPointCode_body ->
  (n ∉ TuyaDataPointCode_irregular -> v = PyStr.lower n) /\
  (n ∈ TuyaDataPointCode_irregular ->
   v <> PyStr.lower n /\ PyEnum.by_value TuyaDataPointCode_class (PyStr.lower n) = None).
Proof.
  intros Hin. pose proof TuyaDataPointCode_body_lowered as Hall.
  rewrite Forall_forall in Hall. exact (Hall _ Hin).
Qed.

Lemma TuyaDataPointCode_value_is_lowered_name_witness :
  ("DEHUMIDITY_SET_ENUM", "dehumidify_set_enum") ∈ TuyaDataPointCode_body /\
  "DEHUMIDITY_SET_ENUM" ∈ TuyaDataPointCode_irregular /\
  "dehumidify_set_enum" <> PyStr.lower "DEHUMIDITY_SET_ENUM" /\
  PyEnum.by_value TuyaDataPointCode_class (PyStr.lower "DEHUMIDITY_SET_ENUM") = None.
Proof.
  assert (Hin : ("DEHUMIDITY_SET_ENUM", "dehumidify_set_enum") ∈ TuyaDataPointCode_body).
  { apply (bool_decide_unpack _). vm_compute. exact I. }
  assert (Hirr : "DEHUMIDITY_SET_ENUM" ∈ TuyaDataPointCode_irregular).
  { apply (bool_decide_unpack _). vm_compute. exact I. }
  split; [exact Hin|]. split; [exact Hirr|].
  exact (proj2 (TuyaDataPointCode_value_is_lowered_name _ _ Hin) Hirr).
Defined.

(** * The string enumerations side by side *)

Lemma TuyaWorkMode_make : PyEnum.make TuyaWorkMode_body = Some TuyaWorkMode_class.
Proof. apply PyEnumFacts.make_default, (bool_decide_unpack _). vm_compute. exact I. Qed.

(** X12: [TuyaWorkMode] has the four members COLOUR, MUSIC, SCENE and
    WHITE, none an alias; the value of each is its name in lower case, and a
    string is accepted by [TuyaWorkMode(v)] exactly when it is one of
    "colour", "music", "scene", "white", in which case the member with that
    value is returned. *)
Theorem TuyaWorkMode_lookup (v : string) :
  PyEnum.members TuyaWorkMode_class =
    map (fun w => PyEnum.Member (TuyaWorkMode_name w) (TuyaWorkMode_value w))
        TuyaWorkMode_declared /\
  (forall w, TuyaWorkMode_value w = PyStr.lower (TuyaWorkMode_name w)) /\
  (is_Some (PyEnum.by_value TuyaWorkMode_class v) <->
   v ∈ [ "colour"; "music"; "scene"; "white" ]) /\
  (forall w, PyEnum.by_value TuyaWorkMode_class v =
               Some (PyEnum.Member (TuyaWorkMode_name w) (TuyaWorkMode_value w)) <->
             TuyaWorkMode_value w = v).
Proof.
  split; [vm_compute; reflexivity|].
  split; [intros []; reflexivity|].
  split; [exact (PyEnumLookup.by_value_is_Some _ _ v TuyaWorkMode_make)|].
  intros w. split.
  - intros Hv.
    apply (PyEnumLookup.by_value_Some _ _ _ _ TuyaWorkMode_make) in Hv as [_ Hv].
    exact Hv.
  - intros <-. destruct w; vm_compute; reflexivity.
Qed.

(** X13: the value of each member of [TuyaDataPointType] is its name
    capitalised, and lookup by value is case-sensitive: the capitalised
    spelling finds the member, the upper-case name and the lower-case
    spelling are rejected. *)
Theorem TuyaDataPointType_capitalised (t : TuyaDataPointType) :
  TuyaDataPointType_value t = PyStr.capitalize (TuyaDataPointType_name t) /\
  PyEnum.by_value TuyaDataPointType_class (TuyaDataPointType_value t) =
    Some (PyEnum.Member (TuyaDataPointType_name t) (TuyaDataPointType_value t)) /\
  PyEnum.by_name TuyaDataPointType_class (TuyaDataPointType_name t) =
    Some (PyEnum.Member (TuyaDataPointType_name t) (TuyaDataPointType_value t)) /\
  PyEnum.by_value TuyaDataPointType_class (TuyaDataPointType_name t) = None /\
  PyEnum.by_value TuyaDataPointType_class (PyStr.lower (TuyaDataPointType_name t)) = None.
Proof. destruct t; vm_compute; repeat split. Qed.

Lemma TuyaDataPointType_values_not_codes :
  Forall (fun v => PyEnum.by_value TuyaDataPointCode_class v = None /\
                   PyEnum.by_value TuyaWorkMode_class v = None)
         TuyaDataPointType_body.*2.
Proof. apply (bool_decide_unpack _). vm_compute. exact I. Qed.

Lemma TuyaWorkMode_values_not_codes :
  Forall (fun v => PyEnum.by_value TuyaDataPointCode_class v = None)
         TuyaWorkMode_body.*2.
Proof. apply (bool_decide_unpack _). vm_compute. exact I. Qed.

(** X14: no string is a value of two of the three string enumerations
    [TuyaDataPointCode], [TuyaDataPointType] and [TuyaWorkMode]: a string
    accepted by one of them is rejected by the other two. *)
Theorem StrEnum_values_disjoint (s : string) :
  (is_Some (PyEnum.by_value TuyaDataPointType_class s) ->
   PyEnum.by_value TuyaDataPointCode_class s = None /\
   PyEnum.by_value TuyaWorkMode_class s = None) /\
  (is_Some (PyEnum.by_value TuyaWorkMode_class s) ->
   PyEnum.by_value TuyaDataPointCode_class s = None /\
   PyEnum.by_value TuyaDataPointType_class s = None) /\
  (is_Some (PyEnum.by_value TuyaDataPointCode_class s) ->
   PyEnum.by_value TuyaDataPointType_class s = None /\
   PyEnum.by_value TuyaWorkMode_class s = None).
Proof.
  pose proof TuyaDataPointType_values_not_codes as Ht.
  pose proof TuyaWorkMode_values_not_codes as Hw.
  rewrite Forall_forall in Ht, Hw.
  assert (HT : is_Some (PyEnum.by_value TuyaDataPointType_class s) ->
               PyEnum.by_value TuyaDataPointCode_class s = None /\
               PyEnum.by_value TuyaWorkMode_class s = None).
  { intros Hs. apply (PyEnumLookup.by_value_is_Some _ _ s TuyaDataPointType_make) in Hs.
    exact (Ht _ Hs). }
  assert (HW : is_Some (PyEnum.by_value TuyaWorkMode_class s) ->
               PyEnum.by_value TuyaDataPointCode_class s = None).
  { intros Hs. apply (PyEnumLookup.by_value_is_Some _ _ s TuyaWorkMode_make) in Hs.
    exact (Hw _ Hs). }
  split; [exact HT|]. split.
  - intros Hs. split; [exact (HW Hs)|].
    destruct (PyEnum.by_value TuyaDataPointType_class s) as [m|] eqn:Hm; [|reflexivity].
    destruct (HT (mk_is_Some _ _ eq_refl)) as [_ Hnone].
    rewrite Hnone in Hs. destruct Hs as [? Hs]. discriminate Hs.
  - intros Hs. split.
    + destruct (PyEnum.by_value TuyaDataPointType_class s) as [m|] eqn:Hm; [|reflexivity].
      destruct (HT (mk_is_Some _ _ eq_refl)) as [Hnone _].
      rewrite Hnone in Hs. destruct Hs as [? Hs]. discriminate Hs.
    + destruct (PyEnum.by_value TuyaWorkMode_class s) as [m|] eqn:Hm; [|reflexivity].
      rewrite (HW (mk_is_Some _ _ eq_refl)) in Hs. destruct Hs as [? Hs]. discriminate Hs.
Qed.

Lemma StrEnum_values_disjoint_witness :
  is_Some (PyEnum.by_value TuyaWorkMode_class "white") /\
  PyEnum.by_value TuyaDataPointCode_class "white" = None /\
  PyEnum.by_value TuyaDataPointType_class "white" = None.
Proof.
  assert (Hs : is_Some (PyEnum.by_value TuyaWorkMode_class "white")).
  { apply (bool_decide_unpack _). vm_compute. exact I. }
  split; [exact Hs|].
  exact (proj1 (proj2 (StrEnum_values_disjoint "white")) Hs).
Defined.

(** * The GATT identifiers *)

(** X15: the three UUID constants are well-formed UUID texts (36
    characters, lower-case hexadecimal digits in groups of 8-4-4-4-12), each
    is the Bluetooth base UUID with a 16-bit identifier filled in (2b10,
    2b11 and a201), and they are pairwise distinct, so the notify and write
    characteristics and the service cannot be mistaken for one another. *)
Theorem gatt_uuids_well_formed :
  Forall (fun u => PyStr.is_uuid u = true /\
                   String.prefix "0000" u = true /\
                   String.substring 8 28 u = bluetooth_base_suffix)
         [ CHARACTERISTIC_NOTIFY; CHARACTERISTIC_WRITE; SERVICE_UUID ] /\
  map (String.substring 4 4) [ CHARACTERISTIC_NOTIFY; CHARACTERISTIC_WRITE; SERVICE_UUID ] =
    [ "2b10"; "2b11"; "a201" ] /\
  NoDup [ CHARACTERISTIC_NOTIFY; CHARACTERISTIC_WRITE; SERVICE_UUID ].
Proof.
  split; [repeat constructor|]. split; [reflexivity|].
  apply (bool_decide_unpack _). vm_compute. exact I.
Qed.

(** * The module as a whole *)

(** X16: every class body of the module is accepted by the enumeration
    construction, no name being assigned twice, so the module can be
    imported; [TuyaDataPointCode] is the only enumeration with an alias: the
    other four have one member per assignment. *)
Theorem module_classes_accepted :
  PyEnum.make TuyaBLECode_body = Some TuyaBLECode_class /\
  PyEnum.make TuyaBLEDataPointType_body = Some TuyaBLEDataPointType_class /\
  PyEnum.make TuyaDataPointCode_body = Some TuyaDataPointCode_class /\
  PyEnum.make TuyaDataPointType_body = Some TuyaDataPointType_class /\
  PyEnum.make TuyaWorkMode_body = Some TuyaWorkMode_class /\
  PyEnum.member_names TuyaBLECode_class = TuyaBLECode_body.*1 /\
  PyEnum.member_names TuyaBLEDataPointType_class = TuyaBLEDataPointType_body.*1 /\
  PyEnum.member_names TuyaDataPointType_class = TuyaDataPointType_body.*1 /\
  PyEnum.member_names TuyaWorkMode_class = TuyaWorkMode_body.*1 /\
  PyEnum.member_names TuyaDataPointCode_class =
    filter (fun n => n <> "FILTER_LIFE") TuyaDataPointCode_body.*1.
Proof.
  split; [exact TuyaBLECode_make|]. split; [exact TuyaBLEDataPointType_make|].
  split; [exact TuyaDataPointCode_make|]. split; [exact TuyaDataPointType_make|].
  split; [exact TuyaWorkMode_make|].
  repeat split; vm_compute; reflexivity.
Qed.
